(** * The FastAPI demo services: a shallow embedding and its properties

    Two Python modules are embedded here.

    - [src/crud.py], the Product CRUD service: five handlers over the
      module-level list [fake_db].  A handler is a function from the store
      to an outcome and the store it leaves behind.
    - [src/app.py], the Greeting service: stateless handlers.

    Python [int] is [Z]; Python [float] is a binary64 value ([float] of
    [PrimFloat]); a raised exception is a constructor of [outcome].

    A handler is embedded as the Python function is written: its value is
    what the function returns or raises.  Routing, the parsing of the
    request into typed arguments and the serialisation of the returned
    value belong to the framework and are not embedded. *)

From Stdlib Require Import ZArith PrimFloat SpecFloat FloatOps.
From stdpp Require Import base option list strings.

Set Warnings "-inexact-float".

Local Open Scope string_scope.
Local Open Scope Z_scope.
Local Open Scope list_scope.

(** ** What a handler produces *)

(** Either the handler returns a value, or it raises.  [HTTPException] is
    the exception the handlers raise themselves; [ValidationError] is the
    one pydantic raises when the [Product] constructor is given a dict
    that does not fit the schema. *)
Inductive outcome (A : Type) : Type :=
  | Return (a : A)
  | HTTPException (status_code : Z) (detail : string)
  | ValidationError.
Arguments Return {A} a.
Arguments HTTPException {A} status_code detail.
Arguments ValidationError {A}.

(** [float(z)] for a Python int: the nearest binary64 value, ties to even;
    Python raises [OverflowError] when there is none, and pydantic's float
    validator then rejects the input. *)
Definition float_of_int (z : Z) : option float :=
  match binary_normalize 53 1024 z 0 false with
  | S754_infinity _ => None
  | sf => Some (SF2Prim sf)
  end.

(** * The Product CRUD service ([src/crud.py]) *)
Module Crud.

(** A number stored under the key ["price"].  The two seed dicts hold
    ints there; whatever comes out of a [Product] model is a float. *)
Inductive number : Type :=
  | PyInt (z : Z)
  | PyFloat (f : float).

(** One dict of [fake_db].  Every dict the module ever puts in the list
    is a seed literal or the [model_dump()] of a [Product], so the keys
    are always these four.  The id is always an int.  The other three can
    also be [None]: [model_copy(update=...)] does not validate, and a
    patch may carry an explicit null. *)
Record row : Type := Row {
  row_id : Z;
  row_name : option string;
  row_price : option number;
  row_stock : option Z
}.

(** An instance of [class Product(BaseModel)].  A validated instance has
    [Some] in every field; only [model_copy] can produce one holding
    [None]. *)
Record Product : Type := MkProduct {
  Product_id : Z;
  Product_name : option string;
  Product_price : option float;
  Product_stock : option Z
}.

(** An instance of [class ProductUpdate(BaseModel)], seen through
    [model_dump(exclude_unset=True)]: the outer [None] is a field that
    was not sent, [Some None] a field sent as null, [Some (Some v)] a
    field sent with the value [v]. *)
Record ProductUpdate : Type := MkProductUpdate {
  ProductUpdate_name : option (option string);
  ProductUpdate_price : option (option float);
  ProductUpdate_stock : option (option Z)
}.

(** The body of [delete_product]'s answer. *)
Record Message : Type := MkMessage { message : string }.

(** The module-level list, as the module is loaded. *)
Definition fake_db : list row :=
  [ Row 1 (Some "Laptop") (Some (PyInt 25000)) (Some 5);
    Row 2 (Some "Mouse") (Some (PyInt 500)) (Some 20) ].

(** pydantic's validator of a [float] field, on a stored number. *)
Definition float_validator (v : number) : option float :=
  match v with
  | PyInt z => float_of_int z
  | PyFloat f => Some f
  end.

(** The [Product] constructor applied to the keys of a stored dict:
    every field is required and none accepts [None]; an int offered as
    price is converted to a float. *)
Definition Product_validate (product : row) : option Product :=
  name ← row_name product;
  price ← row_price product ≫= float_validator;
  stock ← row_stock product;
  Some (MkProduct (row_id product) (Some name) (Some price) (Some stock)).

(** [m.model_dump()]. *)
Definition model_dump (m : Product) : row :=
  Row (Product_id m) (Product_name m) (PyFloat <$> Product_price m) (Product_stock m).

(** [m.model_copy(update=update_data.model_dump(exclude_unset=True))]:
    the fields that were sent replace the instance's, unvalidated. *)
Definition model_copy (m : Product) (update_data : ProductUpdate) : Product :=
  MkProduct (Product_id m)
            (default (Product_name m) (ProductUpdate_name update_data))
            (default (Product_price m) (ProductUpdate_price update_data))
            (default (Product_stock m) (ProductUpdate_stock update_data)).

(** [for index, product in enumerate(fake_db): if product["id"] ==
    product_id: ...] where the body leaves the function: the first index
    whose dict carries the id, with that dict. *)
Fixpoint first_match (product_id : Z) (db : list row) : option (nat * row) :=
  match db with
  | [] => None
  | product :: rest =>
      if decide (row_id product = product_id) then Some (0%nat, product)
      else prod_map S id <$> first_match product_id rest
  end.

Definition read_root : Message := MkMessage "CRUD Operations with FastAPI".

Definition get_products (db : list row) : outcome (list row) * list row :=
  (Return db, db).

Definition get_product (product_id : Z) (db : list row) : outcome row * list row :=
  match first_match product_id db with
  | Some (_, product) => (Return product, db)
  | None => (HTTPException 404 "Product not found", db)
  end.

Definition create_product (product : Product) (db : list row)
  : outcome Product * list row :=
  match first_match (Product_id product) db with
  | Some _ => (HTTPException 400 "ID already exists", db)
  | None => (Return product, db ++ [model_dump product])
  end.

Definition update_product (product_id : Z) (update_data : ProductUpdate)
    (db : list row) : outcome Product * list row :=
  match first_match product_id db with
  | Some (index, product) =>
      match Product_validate product with
      | Some stored_item_model =>
          let updated_item := model_copy stored_item_model update_data in
          (Return updated_item, <[index := model_dump updated_item]> db)
      | None => (ValidationError, db)
      end
  | None => (HTTPException 404 "Product not found", db)
  end.

Definition delete_product (product_id : Z) (db : list row)
  : outcome Message * list row :=
  match first_match product_id db with
  | Some (index, _) =>
      (Return (MkMessage "Product deleted successfully"), delete index db)
  | None => (HTTPException 404 "Product not found", db)
  end.

(** The ids of the stored products, in store order. *)
Definition ids (db : list row) : list Z := row_id <$> db.

(** A request to the service, and the store it leaves behind. *)
Inductive request : Type :=
  | List_
  | Get (product_id : Z)
  | Create (product : Product)
  | Update (product_id : Z) (update_data : ProductUpdate)
  | Delete (product_id : Z).

Definition handle (req : request) (db : list row) : list row :=
  match req with
  | List_ => snd (get_products db)
  | Get product_id => snd (get_product product_id db)
  | Create product => snd (create_product product db)
  | Update product_id update_data => snd (update_product product_id update_data db)
  | Delete product_id => snd (delete_product product_id db)
  end.

(** The stores the service can be in: the seed, and whatever a request
    makes of a store it can be in. *)
Inductive reachable : list row → Prop :=
  | reachable_seed : reachable fake_db
  | reachable_step req db : reachable db → reachable (handle req db).

(** ** Vocabulary of the statements below *)

(** The patch of a request body [{}]: no field was sent. *)
Definition empty_patch : ProductUpdate := MkProductUpdate None None None.

(** What the [Product] schema makes of a stored price: a float stays the
    float it is, an int becomes the float of that int. *)
Definition price_as_float (stored : option number) : option number :=
  PyFloat <$> (stored ≫= float_validator).

(** Three values for the examples: the two seed dicts, and a product
    whose id is not in the seed. *)
Definition laptop : row := Row 1 (Some "Laptop") (Some (PyInt 25000)) (Some 5).
Definition mouse : row := Row 2 (Some "Mouse") (Some (PyInt 500)) (Some 20).
Definition keyboard : Product :=
  MkProduct 3 (Some "Keyboard") (Some 1500%float) (Some 10).

(** The handler did not return: it raised. *)
Definition raised {A : Type} (o : outcome A) : Prop :=
  match o with
  | Return _ => False
  | _ => True
  end.

(** A [Product] as the framework hands it to [create_product], parsed
    from a request body: no field holds [None]. *)
Definition validated (p : Product) : Prop :=
  is_Some (Product_name p) ∧ is_Some (Product_price p) ∧ is_Some (Product_stock p).

(** A patch in which no field was sent as null. *)
Definition null_free (update_data : ProductUpdate) : Prop :=
  ProductUpdate_name update_data ≠ Some None
  ∧ ProductUpdate_price update_data ≠ Some None
  ∧ ProductUpdate_stock update_data ≠ Some None.

(** A request that carries no null: a Create with a parsed body, an
    Update with a null-free patch, or any List, Get or Delete. *)
Definition sends_no_null (req : request) : Prop :=
  match req with
  | Create p => validated p
  | Update _ update_data => null_free update_data
  | _ => True
  end.

(** A stored dict from which the [Product] constructor builds a model. *)
Definition fits_schema (product : row) : Prop :=
  is_Some (Product_validate product).

(** The id a request is about, if it is about one product. *)
Definition concerns (req : request) : option Z :=
  match req with
  | List_ => None
  | Get product_id => Some product_id
  | Create p => Some (Product_id p)
  | Update product_id _ => Some product_id
  | Delete product_id => Some product_id
  end.

(** The store after a sequence of requests, served one after the other. *)
Definition run (reqs : list request) (db : list row) : list row :=
  foldl (λ db req, handle req db) db reqs.

End Crud.

(** * The Greeting service ([src/app.py]) *)
Module App.

Record Item : Type := MkItem {
  name : string;
  description : option string;
  price : float;
  tax : option float
}.

Record Message : Type := MkMessage { message : string }.
Record UserOut : Type := MkUserOut { user_id : Z }.
Record ItemsOut : Type := MkItemsOut { skip : Z; limit : Z }.
Record ItemOut : Type := MkItemOut { item_name : string; price_with_tax : float }.

Definition read_root : Message := MkMessage "Hello, World from FastAPI!".
Definition read_about : Message := MkMessage "This is simple About path api".
Definition read_products : Message := MkMessage "List of products".
Definition create_product : Message := MkMessage "Create a new product".
Definition update_product : Message := MkMessage "Update an existing product".
Definition partial_update_product : Message := MkMessage "Partially update a product".
Definition delete_product : Message := MkMessage "Delete a product".

Definition get_user (user_id : Z) : UserOut := MkUserOut (user_id + 1).

(** [def get_items(skip: int = 0, limit: int = 10)]: a query parameter
    that is absent takes its default. *)
Definition get_items (skip limit : option Z) : ItemsOut :=
  MkItemsOut (default 0 skip) (default 10 limit).

Definition create_item (item : Item) : ItemOut :=
  MkItemOut (name item) (PrimFloat.mul (price item) 1.07%float).

End App.

(** * Properties of the Product CRUD service *)
Section CrudProperties.
Import Crud.

Implicit Types (db : list row) (product_id : Z) (product : row)
  (update_data : ProductUpdate) (index : nat).

(** ** The scan *)

Lemma first_match_None product_id db :
  first_match product_id db = None ↔ product_id ∉ ids db.
Proof.
  unfold ids. induction db as [|r db IH]; simpl.
  - split; [intros _; apply not_elem_of_nil | done].
  - rewrite not_elem_of_cons. destruct (decide (row_id r = product_id)) as [E|E].
    + split; [done | intros [? _]; congruence].
    + rewrite fmap_None, IH. split; [intros H; split; [congruence | done] | intros [_ H]; done].
Qed.

Lemma first_match_Some product_id db index product :
  first_match product_id db = Some (index, product) ↔
  db !! index = Some product ∧ row_id product = product_id
  ∧ product_id ∉ ids (take index db).
Proof.
  unfold ids. revert index. induction db as [|r db IH]; intros index; simpl.
  - split; [done | intros [? _]; done].
  - destruct (decide (row_id r = product_id)) as [E|E].
    + split.
      * intros [= <- <-]. simpl. split_and!; [done | done | apply not_elem_of_nil].
      * intros (Hl & Hid & Hfresh). destruct index as [|index]; simpl in *.
        -- by simplify_eq.
        -- exfalso. apply Hfresh. rewrite <- E. apply list_elem_of_here.
    + rewrite fmap_Some. split.
      * intros ([j r'] & Hf & [= -> ->]). apply IH in Hf as (Hl & Hid & Hfresh).
        simpl. split_and!; [done | done |].
        rewrite not_elem_of_cons. split; [congruence | done].
      * intros (Hl & Hid & Hfresh). destruct index as [|index]; simpl in *.
        -- simplify_eq.
        -- rewrite not_elem_of_cons in Hfresh. destruct Hfresh as [_ Hfresh].
           exists (index, product). split; [| done]. apply IH. done.
Qed.

Lemma first_match_elem_of product_id db :
  product_id ∈ ids db → ∃ index product, first_match product_id db = Some (index, product).
Proof.
  intros Hin. destruct (first_match product_id db) as [[index product]|] eqn:E.
  - eauto.
  - apply first_match_None in E. done.
Qed.

Lemma first_match_middle product_id db index product :
  first_match product_id db = Some (index, product) →
  db = take index db ++ product :: drop (S index) db.
Proof.
  intros (Hl & _)%first_match_Some. symmetry. by apply take_drop_middle.
Qed.

Lemma elem_of_ids product db : product ∈ db → row_id product ∈ ids db.
Proof. intros H. unfold ids. by apply list_elem_of_fmap_2. Qed.

(** Replacing a dict by one with the same id leaves the ids as they are. *)
Lemma ids_insert db index product new :
  db !! index = Some product → row_id new = row_id product →
  ids (<[index := new]> db) = ids db.
Proof.
  intros Hl Hid. unfold ids. rewrite list_fmap_insert, Hid.
  apply list_insert_id. by rewrite list_lookup_fmap, Hl.
Qed.

Lemma ids_delete db index : ids (delete index db) = delete index (ids db).
Proof.
  unfold ids. revert index. induction db as [|r db IH]; intros [|index]; simpl; try done.
  by rewrite IH.
Qed.

Lemma validate_id product m : Product_validate product = Some m → Product_id m = row_id product.
Proof.
  unfold Product_validate. intros H.
  destruct (row_name product); simpl in H; [| done].
  destruct (row_price product ≫= float_validator); simpl in H; [| done].
  destruct (row_stock product); simpl in H; [| done].
  by simplify_eq.
Qed.

Lemma NoDup_ids_lookup db i j (r r' : row) :
  NoDup (ids db) → db !! i = Some r → db !! j = Some r' → row_id r = row_id r' →
  i = j.
Proof.
  intros Hnd Hi Hj Hid. apply (NoDup_lookup (ids db) i j (row_id r)); [done | |].
  - unfold ids. by rewrite list_lookup_fmap, Hi.
  - unfold ids. by rewrite list_lookup_fmap, Hj, Hid.
Qed.

(** Under unique ids every stored dict is the first one carrying its id. *)
Lemma first_match_lookup db index product :
  NoDup (ids db) → db !! index = Some product →
  first_match (row_id product) db = Some (index, product).
Proof.
  intros Hnd Hl. apply first_match_Some. split_and!; [done | done |].
  unfold ids. intros (r & Hid & Hr)%list_elem_of_fmap.
  apply list_elem_of_lookup in Hr as [j Hj].
  apply lookup_take_Some in Hj as [Hj Hlt].
  assert (index = j) by (by eapply NoDup_ids_lookup). lia.
Qed.

Lemma first_match_app_fresh product_id db product :
  product_id ∉ ids db → row_id product = product_id →
  first_match product_id (db ++ [product]) = Some (length db, product).
Proof.
  intros Hfresh Hid. apply first_match_Some. split_and!; [| done |].
  - by rewrite lookup_app_r, Nat.sub_diag.
  - by rewrite take_app_length.
Qed.

(** ** Create *)

(** C1. Create with an id that no stored product carries returns the
    product and appends one dict to the store, which grows by exactly
    one.  That dict carries the product field by field: its id, name and
    stock are the product's, and its price is the product's float.  A Get
    on that id then returns this dict and leaves the store as Create left
    it.  Create with an id that a stored product carries raises
    HTTPException 400 "ID already exists" and leaves the store as it
    was. *)
Theorem create_product_spec (p : Product) db :
  (Product_id p ∉ ids db →
     ∃ stored,
       create_product p db = (Return p, db ++ [stored])
       ∧ row_id stored = Product_id p
       ∧ row_name stored = Product_name p
       ∧ row_price stored = PyFloat <$> Product_price p
       ∧ row_stock stored = Product_stock p
       ∧ length (snd (create_product p db)) = S (length db)
       ∧ get_product (Product_id p) (snd (create_product p db))
         = (Return stored, snd (create_product p db)))
  ∧ (Product_id p ∈ ids db →
     create_product p db = (HTTPException 400 "ID already exists", db)).
Proof.
  unfold create_product. split.
  - intros Hfresh. pose proof Hfresh as ->%first_match_None. simpl.
    exists (model_dump p).
    split_and!; [done | done | done | done | done | rewrite length_app; simpl; lia |].
    unfold get_product. by rewrite (first_match_app_fresh _ _ (model_dump p)).
  - intros (index & product & ->)%first_match_elem_of. done.
Qed.

(** ** Requests on an id that is not in the store *)

(** C2. When no stored product carries the id, Get, Update and Delete
    each raise HTTPException 404 "Product not found" and leave the store
    exactly as it was. *)
Theorem absent_id_not_found product_id update_data db :
  product_id ∉ ids db →
  get_product product_id db = (HTTPException 404 "Product not found", db)
  ∧ update_product product_id update_data db
    = (HTTPException 404 "Product not found", db)
  ∧ delete_product product_id db = (HTTPException 404 "Product not found", db).
Proof.
  intros Hfresh%first_match_None.
  unfold get_product, update_product, delete_product. by rewrite Hfresh.
Qed.

(** ** Get *)

(** C5. When some stored product carries the id, Get returns a stored
    dict carrying it, whole, and leaves the store as it was; with unique
    ids, Get on the id of any stored dict returns exactly that dict. *)
Theorem get_product_present db :
  (∀ product_id, product_id ∈ ids db →
     ∃ product, product ∈ db ∧ row_id product = product_id
       ∧ get_product product_id db = (Return product, db))
  ∧ (NoDup (ids db) → ∀ product, product ∈ db →
       get_product (row_id product) db = (Return product, db)).
Proof.
  split.
  - intros product_id (index & product & Hf)%first_match_elem_of.
    exists product. unfold get_product. rewrite Hf.
    apply first_match_Some in Hf as (Hl & Hid & _).
    split_and!; [| done | done]. apply list_elem_of_lookup. eauto.
  - intros Hnd product [index Hl]%list_elem_of_lookup.
    unfold get_product. by rewrite (first_match_lookup _ index).
Qed.

(** ** Delete *)

(** C6. When some stored product carries the id, Delete removes one dict,
    the first that carries the id: the dicts before it and after it stay,
    unchanged and in order, the store shrinks by one, and the answer is
    the message "Product deleted successfully".  With unique ids, a Get
    on that id then raises 404 "Product not found". *)
Theorem delete_product_present product_id db :
  product_id ∈ ids db →
  ∃ before product after,
    db = before ++ product :: after
    ∧ row_id product = product_id
    ∧ (product_id ∉ ids before)
    ∧ delete_product product_id db
      = (Return (MkMessage "Product deleted successfully"), before ++ after)
    ∧ S (length (before ++ after)) = length db
    ∧ (NoDup (ids db) →
       get_product product_id (before ++ after)
       = (HTTPException 404 "Product not found", before ++ after)).
Proof.
  intros (index & product & Hf)%first_match_elem_of.
  exists (take index db), product, (drop (S index) db).
  pose proof (first_match_middle _ _ _ _ Hf) as Hsplit.
  apply first_match_Some in Hf as Hf'. destruct Hf' as (Hl & Hid & Hfresh).
  split_and!; [done | done | done | | |].
  - unfold delete_product. by rewrite Hf, delete_take_drop.
  - rewrite Hsplit at 3. rewrite !length_app. simpl. lia.
  - intros Hnd. unfold get_product.
    assert (product_id ∉ ids (take index db ++ drop (S index) db)) as ->%first_match_None; [| done].
    rewrite Hsplit in Hnd. unfold ids in *.
    rewrite fmap_app, fmap_cons, Hid in Hnd.
    apply NoDup_app in Hnd as (_ & Hdisj & Hnd%NoDup_cons).
    destruct Hnd as [Hnot _].
    rewrite fmap_app, elem_of_app. intros [H | H]; done.
Qed.

(** ** Update *)

Lemma update_product_found product_id update_data db index product stored :
  first_match product_id db = Some (index, product) →
  Product_validate product = Some stored →
  update_product product_id update_data db
  = (Return (model_copy stored update_data),
     <[index := model_dump (model_copy stored update_data)]> db).
Proof. intros Hf Hv. unfold update_product. by rewrite Hf, Hv. Qed.

Lemma update_product_ids product_id update_data db :
  ids (snd (update_product product_id update_data db)) = ids db.
Proof.
  unfold update_product.
  destruct (first_match product_id db) as [[index product]|] eqn:Hf; [| done].
  destruct (Product_validate product) as [stored|] eqn:Hv; [| done].
  apply first_match_Some in Hf as (Hl & _ & _). simpl.
  apply (ids_insert _ _ product); [done |]. simpl. by apply validate_id.
Qed.

Lemma validate_fields product stored :
  Product_validate product = Some stored →
  Product_id stored = row_id product
  ∧ Product_name stored = row_name product
  ∧ PyFloat <$> Product_price stored = price_as_float (row_price product)
  ∧ Product_stock stored = row_stock product.
Proof.
  unfold Product_validate, price_as_float. intros H.
  destruct (row_name product); simpl in H; [| done].
  destruct (row_price product ≫= float_validator); simpl in H; [| done].
  destruct (row_stock product); simpl in H; [| done].
  by simplify_eq.
Qed.

(** C3 fails on the seed store.  [PUT /products/1] with the body [{}]
    replaces the stored dict, whose price is the int [25000], by one
    whose price is the float [25000.0]. *)
Lemma update_empty_patch_seed_changes_price :
  fake_db !! 0%nat = Some laptop
  ∧ update_product 1 empty_patch fake_db
    = (Return (MkProduct 1 (Some "Laptop") (Some 25000%float) (Some 5)),
       [Row 1 (Some "Laptop") (Some (PyFloat 25000)) (Some 5); mouse])
  ∧ row_price <$> snd (update_product 1 empty_patch fake_db) !! 0%nat
    ≠ row_price <$> fake_db !! 0%nat
  ∧ snd (update_product 1 empty_patch fake_db) ≠ fake_db.
Proof. split_and!; [reflexivity | reflexivity | discriminate | discriminate]. Qed.

(** C3, amended.  Take a stored dict, the first to carry its id, that
    fits the [Product] schema.  Update on its id returns the updated
    product and writes its dump in the same place.  In that dump the id
    is the stored one; name and stock are the patch's value where the
    patch sent the field, and the stored value where it did not; price is
    the patch's value where sent, and otherwise the stored price read as
    a float, which is the stored price itself when that is a float
    already.  With the empty patch and a stored float price the store is
    left as it was. *)
Theorem update_product_overlay db index product stored update_data :
  db !! index = Some product →
  row_id product ∉ ids (take index db) →
  Product_validate product = Some stored →
  ∃ updated_item,
    update_product (row_id product) update_data db
    = (Return updated_item, <[index := model_dump updated_item]> db)
    ∧ row_id (model_dump updated_item) = row_id product
    ∧ row_name (model_dump updated_item)
      = default (row_name product) (ProductUpdate_name update_data)
    ∧ row_stock (model_dump updated_item)
      = default (row_stock product) (ProductUpdate_stock update_data)
    ∧ row_price (model_dump updated_item)
      = default (price_as_float (row_price product))
                (fmap (M:=option) PyFloat <$> ProductUpdate_price update_data)
    ∧ (∀ f, row_price product = Some (PyFloat f) →
         price_as_float (row_price product) = row_price product
         ∧ (update_data = empty_patch →
            <[index := model_dump updated_item]> db = db)).
Proof.
  intros Hl Hfirst Hv. exists (model_copy stored update_data).
  destruct (validate_fields _ _ Hv) as (Hid & Hname & Hprice & Hstock).
  split_and!.
  - apply (update_product_found _ _ _ _ product); [| done].
    by apply first_match_Some.
  - done.
  - simpl. by rewrite Hname.
  - simpl. by rewrite Hstock.
  - simpl. rewrite <- Hprice. by destruct (ProductUpdate_price update_data).
  - intros f Hf. split; [by rewrite Hf |]. intros ->.
    apply list_insert_id. rewrite Hl. f_equal.
    destruct product as [i n pr s]. simpl in *. subst pr.
    unfold model_dump, model_copy. simpl. rewrite Hid, Hname, Hstock, Hprice. done.
Qed.

(** The theorem at the second seed dict, with the patch [{"stock": 15}]. *)
Lemma update_product_overlay_witness :
  ∃ updated_item,
    update_product 2 (MkProductUpdate None None (Some (Some 15))) fake_db
    = (Return updated_item, <[1%nat := model_dump updated_item]> fake_db)
    ∧ row_stock (model_dump updated_item) = Some 15
    ∧ row_name (model_dump updated_item) = Some "Mouse".
Proof.
  destruct (update_product_overlay fake_db 1 mouse
              (MkProduct 2 (Some "Mouse") (Some 500%float) (Some 20))
              (MkProductUpdate None None (Some (Some 15))))
    as (updated_item & Hrun & _ & Hname & Hstock & _).
  - reflexivity.
  - apply first_match_None. reflexivity.
  - reflexivity.
  - exists updated_item. split_and!; [exact Hrun | exact Hstock | exact Hname].
Defined.

(** C9. Update leaves every stored id where it was, whatever the patch
    and whatever the outcome; the product it returns carries the id that
    was asked for. *)
Theorem update_product_keeps_ids product_id update_data db :
  ids (snd (update_product product_id update_data db)) = ids db
  ∧ match fst (update_product product_id update_data db) with
    | Return updated_item => Product_id updated_item = product_id
    | _ => True
    end.
Proof.
  split; [apply update_product_ids |].
  unfold update_product.
  destruct (first_match product_id db) as [[index product]|] eqn:Hf; [| done].
  destruct (Product_validate product) as [stored|] eqn:Hv; [| done].
  apply first_match_Some in Hf as (_ & Hid & _). simpl.
  by rewrite (validate_id _ _ Hv).
Qed.

(** ** The invariant of the store *)

Lemma seed_ids_unique : NoDup (ids fake_db).
Proof.
  unfold ids. simpl. apply NoDup_cons. split; [| apply NoDup_singleton].
  intros H%list_elem_of_singleton. discriminate.
Qed.

Lemma create_product_unique (p : Product) db :
  NoDup (ids db) → NoDup (ids (snd (create_product p db))).
Proof.
  intros Hnd. unfold create_product.
  destruct (first_match (Product_id p) db) as [[index product]|] eqn:Hf; [done |].
  apply first_match_None in Hf. unfold ids in *. simpl.
  rewrite fmap_app. apply NoDup_app. split_and!; [done | | apply NoDup_singleton].
  intros x Hx ->%list_elem_of_singleton. done.
Qed.

Lemma delete_product_unique product_id db :
  NoDup (ids db) → NoDup (ids (snd (delete_product product_id db))).
Proof.
  intros Hnd. unfold delete_product.
  destruct (first_match product_id db) as [[index product]|]; [| done].
  simpl. rewrite ids_delete. eapply sublist_NoDup; [done | apply sublist_delete].
Qed.

(** Every request keeps the ids pairwise distinct. *)
Lemma handle_unique req db : NoDup (ids db) → NoDup (ids (handle req db)).
Proof.
  intros Hnd. destruct req as [| product_id | p | product_id update_data | product_id];
    simpl.
  - done.
  - unfold get_product. by destruct (first_match product_id db) as [[? ?]|].
  - by apply create_product_unique.
  - by rewrite update_product_ids.
  - by apply delete_product_unique.
Qed.

(** C4. In every store the service can reach from the seed, by any
    sequence of List, Get, Create, Update and Delete requests, the ids of
    the stored products are pairwise distinct. *)
Theorem reachable_ids_unique db : reachable db → NoDup (ids db).
Proof.
  induction 1 as [| req db Hreach IH].
  - apply seed_ids_unique.
  - by apply handle_unique.
Qed.

(** The theorem after four requests on the seed. *)
Lemma reachable_ids_unique_witness :
  NoDup (ids (handle (Delete 1)
               (handle (Update 2 (MkProductUpdate (Some None) None None))
                 (handle (Create keyboard) (handle List_ fake_db))))).
Proof.
  apply reachable_ids_unique.
  apply reachable_step, reachable_step, reachable_step, reachable_step, reachable_seed.
Defined.

(** ** The statements above, at the seed store *)

Lemma create_product_spec_witness :
  (∃ stored,
     create_product keyboard fake_db = (Return keyboard, fake_db ++ [stored])
     ∧ row_id stored = 3
     ∧ row_name stored = Some "Keyboard"
     ∧ row_price stored = Some (PyFloat 1500)
     ∧ row_stock stored = Some 10
     ∧ get_product 3 (fake_db ++ [stored]) = (Return stored, fake_db ++ [stored]))
  ∧ create_product (MkProduct 1 (Some "Desk") (Some 900%float) (Some 1)) fake_db
    = (HTTPException 400 "ID already exists", fake_db).
Proof.
  split.
  - destruct (proj1 (create_product_spec keyboard fake_db))
      as (stored & Hrun & Hid & Hname & Hprice & Hstock & _ & Hget).
    + apply first_match_None. reflexivity.
    + exists stored. rewrite Hrun in Hget.
      split_and!; [exact Hrun | exact Hid | exact Hname | exact Hprice
                  | exact Hstock | exact Hget].
  - apply (proj2 (create_product_spec
                    (MkProduct 1 (Some "Desk") (Some 900%float) (Some 1)) fake_db)).
    apply (elem_of_ids laptop). apply list_elem_of_here.
Defined.

Lemma absent_id_not_found_witness :
  get_product 7 fake_db = (HTTPException 404 "Product not found", fake_db)
  ∧ update_product 7 empty_patch fake_db
    = (HTTPException 404 "Product not found", fake_db)
  ∧ delete_product 7 fake_db = (HTTPException 404 "Product not found", fake_db).
Proof.
  apply (absent_id_not_found 7 empty_patch fake_db).
  apply first_match_None. reflexivity.
Defined.

Lemma get_product_present_witness :
  get_product 2 fake_db = (Return mouse, fake_db).
Proof.
  apply (proj2 (get_product_present fake_db) seed_ids_unique mouse).
  apply list_elem_of_further, list_elem_of_here.
Defined.

Lemma delete_product_present_witness :
  ∃ before product after,
    fake_db = before ++ product :: after
    ∧ delete_product 1 fake_db
      = (Return (MkMessage "Product deleted successfully"), before ++ after)
    ∧ get_product 1 (before ++ after)
      = (HTTPException 404 "Product not found", before ++ after).
Proof.
  destruct (delete_product_present 1 fake_db)
    as (before & product & after & Hsplit & _ & _ & Hrun & _ & Hget).
  - apply (elem_of_ids laptop). apply list_elem_of_here.
  - exists before, product, after.
    split_and!; [exact Hsplit | exact Hrun | exact (Hget seed_ids_unique)].
Defined.

(** The examples of the specification: [PUT /products/2] with
    [{"stock": 15}], then [DELETE /products/1] and [GET /products/1]. *)
Example put_stock_example :
  fst (update_product 2 (MkProductUpdate None None (Some (Some 15))) fake_db)
  = Return (MkProduct 2 (Some "Mouse") (Some 500%float) (Some 15)).
Proof. reflexivity. Qed.

Example delete_then_get_example :
  delete_product 1 fake_db
  = (Return (MkMessage "Product deleted successfully"), [mouse])
  ∧ fst (get_product 1 (snd (delete_product 1 fake_db)))
    = HTTPException 404 "Product not found".
Proof. split; reflexivity. Qed.

(** A patch may send a field as null.  The null is stored, and the next
    Update on that product is refused by the [Product] schema. *)
Example null_patch_example :
  let db := snd (update_product 2 (MkProductUpdate (Some None) None None) fake_db) in
  db !! 1%nat = Some (Row 2 None (Some (PyFloat 500)) (Some 20))
  ∧ update_product 2 empty_patch db = (ValidationError, db).
Proof. split; reflexivity. Qed.

End CrudProperties.

(** * Properties of the Greeting service *)
Section AppProperties.
Import App.

(** C7. [POST /items/] answers with the name of the item and with its
    price multiplied, in binary64 arithmetic, by 1.07; for the body
    [{"name": "x", "price": 100}] that is [107.0]. *)
Theorem create_item_price_with_tax :
  (∀ item : Item,
     create_item item = MkItemOut (name item) (PrimFloat.mul (price item) 1.07%float))
  ∧ (∀ description tax,
       create_item (MkItem "x" description 100%float tax) = MkItemOut "x" 107%float).
Proof. split; reflexivity. Qed.

(** C8. [GET /users/{user_id}] answers with [user_id + 1]; [GET /items/]
    answers with the two query parameters, an absent [skip] being 0 and
    an absent [limit] being 10. *)
Theorem get_user_get_items_echo :
  (∀ user_id : Z, get_user user_id = MkUserOut (user_id + 1))
  ∧ get_user 5 = MkUserOut 6
  ∧ (∀ skip limit : Z, get_items (Some skip) (Some limit) = MkItemsOut skip limit)
  ∧ (∀ limit : Z, get_items None (Some limit) = MkItemsOut 0 limit)
  ∧ (∀ skip : Z, get_items (Some skip) None = MkItemsOut skip 10)
  ∧ get_items None None = MkItemsOut 0 10.
Proof. split_and!; reflexivity. Qed.

(** C10. The answer of [POST /items/] is a function of the name and the
    price alone: two bodies that agree on both get the same answer,
    whatever their descriptions and taxes. *)
Theorem create_item_ignores_tax_and_description (item1 item2 : Item) :
  name item1 = name item2 → price item1 = price item2 →
  create_item item1 = create_item item2.
Proof. intros Hname Hprice. unfold create_item. by rewrite Hname, Hprice. Qed.

Lemma create_item_ignores_tax_and_description_witness :
  create_item (MkItem "x" None 100%float None)
  = create_item (MkItem "x" (Some "a thing") 100%float (Some 7%float)).
Proof.
  apply (create_item_ignores_tax_and_description
           (MkItem "x" None 100%float None)
           (MkItem "x" (Some "a thing") 100%float (Some 7%float)));
    reflexivity.
Defined.

End AppProperties.

(** * How the handlers of the CRUD service compose *)
Section CrudCompositions.
Import Crud.

Implicit Types (db : list row) (product_id : Z) (product : row)
  (update_data : ProductUpdate) (index : nat) (p : Product).

(** ** The three ways [update_product] can end *)

Lemma update_product_cases product_id update_data db :
  (first_match product_id db = None
   ∧ update_product product_id update_data db
     = (HTTPException 404 "Product not found", db))
  ∨ (∃ index product,
       first_match product_id db = Some (index, product)
       ∧ Product_validate product = None
       ∧ update_product product_id update_data db = (ValidationError, db))
  ∨ (∃ index product stored,
       first_match product_id db = Some (index, product)
       ∧ Product_validate product = Some stored
       ∧ update_product product_id update_data db
         = (Return (model_copy stored update_data),
            <[index := model_dump (model_copy stored update_data)]> db)).
Proof.
  unfold update_product.
  destruct (first_match product_id db) as [[index product]|]; [| by left].
  destruct (Product_validate product) as [stored|] eqn:Hv; right.
  - right. by exists index, product, stored.
  - left. by exists index, product.
Qed.

Lemma first_match_insert product_id db index product new :
  first_match product_id db = Some (index, product) → row_id new = product_id →
  first_match product_id (<[index := new]> db) = Some (index, new).
Proof.
  intros (Hl & Hid & Hfresh)%first_match_Some Hnew. apply first_match_Some.
  split_and!; [| done |].
  - apply list_lookup_insert_eq. by eapply lookup_lt_Some.
  - by rewrite take_insert_ge.
Qed.

(** The dict written by an Update carries the id that was asked for. *)
Lemma updated_row_id product_id db index product stored update_data :
  first_match product_id db = Some (index, product) →
  Product_validate product = Some stored →
  row_id (model_dump (model_copy stored update_data)) = product_id.
Proof.
  intros (_ & Hid & _)%first_match_Some Hv. simpl.
  by rewrite (validate_id _ _ Hv).
Qed.

(** A model read back from its own dump is that model. *)
Lemma validate_dump (m stored : Product) :
  Product_validate (model_dump m) = Some stored → stored = m.
Proof.
  destruct m as [i [n|] [f|] [s|]]; unfold Product_validate; simpl;
    intros H; by simplify_eq.
Qed.

Lemma model_copy_idem (m : Product) update_data :
  model_copy (model_copy m update_data) update_data = model_copy m update_data.
Proof. destruct update_data as [[?|] [?|] [?|]]; reflexivity. Qed.

Lemma model_copy_empty (m : Product) : model_copy m empty_patch = m.
Proof. by destruct m. Qed.

(** ** Failures *)

(** X1. No handler leaves a store half changed.  List and Get never
    change the store; Create, Update and Delete change it only when they
    return: whenever one of them raises, whichever exception it is, the
    store is the one it was given. *)
Theorem raise_leaves_store p product_id update_data db :
  snd (get_products db) = db
  ∧ snd (get_product product_id db) = db
  ∧ (raised (fst (create_product p db)) → snd (create_product p db) = db)
  ∧ (raised (fst (update_product product_id update_data db)) →
     snd (update_product product_id update_data db) = db)
  ∧ (raised (fst (delete_product product_id db)) →
     snd (delete_product product_id db) = db).
Proof.
  split_and!.
  - done.
  - unfold get_product. by destruct (first_match product_id db) as [[? ?]|].
  - unfold create_product.
    by destruct (first_match (Product_id p) db) as [[? ?]|].
  - destruct (update_product_cases product_id update_data db)
      as [[_ ->] | [(? & ? & _ & _ & ->) | (? & ? & ? & _ & _ & ->)]]; done.
  - unfold delete_product. by destruct (first_match product_id db) as [[? ?]|].
Qed.

(** The theorem on a store in which the second product has a null name:
    the Update is refused by the schema and nothing is written. *)
Lemma raise_leaves_store_witness :
  snd (update_product 2 (MkProductUpdate None None (Some (Some 15)))
         [laptop; Row 2 None (Some (PyFloat 500)) (Some 20)])
  = [laptop; Row 2 None (Some (PyFloat 500)) (Some 20)].
Proof.
  apply (proj1 (proj2 (proj2 (proj2
           (raise_leaves_store keyboard 2 (MkProductUpdate None None (Some (Some 15)))
              [laptop; Row 2 None (Some (PyFloat 500)) (Some 20)]))))).
  exact I.
Defined.

(** X2. The handlers raise exactly when the id is on the wrong side: Get
    and Delete raise if and only if no stored product carries the id,
    Create raises if and only if one does, and Update raises 404 "Product
    not found" if and only if none does. *)
Theorem outcomes_exact p product_id update_data db :
  (raised (fst (get_product product_id db)) ↔ product_id ∉ ids db)
  ∧ (raised (fst (delete_product product_id db)) ↔ product_id ∉ ids db)
  ∧ (raised (fst (create_product p db)) ↔ Product_id p ∈ ids db)
  ∧ (fst (update_product product_id update_data db)
     = HTTPException 404 "Product not found" ↔ product_id ∉ ids db).
Proof.
  split_and!.
  - rewrite <- first_match_None. unfold get_product.
    by destruct (first_match product_id db) as [[? ?]|].
  - rewrite <- first_match_None. unfold delete_product.
    by destruct (first_match product_id db) as [[? ?]|].
  - unfold create_product.
    destruct (first_match (Product_id p) db) as [[index product]|] eqn:Hf; simpl.
    + apply first_match_Some in Hf as (Hl & Hid & _). split; [intros _ | done].
      rewrite <- Hid. apply elem_of_ids, list_elem_of_lookup. eauto.
    + apply first_match_None in Hf. done.
  - rewrite <- first_match_None.
    destruct (update_product_cases product_id update_data db)
      as [[Hf ->] | [(? & ? & Hf & _ & ->) | (? & ? & ? & Hf & _ & ->)]];
      rewrite Hf; done.
Qed.

(** ** What an Update touches *)

(** X3. An Update keeps the number of stored products, and changes at
    most one place of the store: the place of the first product carrying
    the id.  Every other place holds what it held. *)
Theorem update_product_frame product_id update_data db :
  length (snd (update_product product_id update_data db)) = length db
  ∧ ∀ j, (∀ product, first_match product_id db ≠ Some (j, product)) →
         snd (update_product product_id update_data db) !! j = db !! j.
Proof.
  destruct (update_product_cases product_id update_data db)
    as [[_ ->] | [(? & ? & _ & _ & ->) | (index & product & ? & Hf & _ & ->)]];
    simpl; [done | done |].
  split; [apply length_insert |].
  intros j Hj. apply list_lookup_insert_ne. intros ->. by eapply Hj.
Qed.

(** The theorem at the seed: an Update of product 2 leaves place 0. *)
Lemma update_product_frame_witness :
  snd (update_product 2 (MkProductUpdate None (Some (Some 450%float)) None) fake_db)
    !! 0%nat = Some laptop.
Proof.
  apply (proj2 (update_product_frame 2
                  (MkProductUpdate None (Some (Some 450%float)) None) fake_db) 0%nat).
  intros product. discriminate.
Defined.

(** X4. Sending the same Update twice leaves the store that sending it
    once leaves, whatever the patch and whatever the outcome. *)
Theorem update_product_idempotent product_id update_data db :
  snd (update_product product_id update_data
         (snd (update_product product_id update_data db)))
  = snd (update_product product_id update_data db).
Proof.
  destruct (update_product_cases product_id update_data db)
    as [[Hf Hrun] | [(? & ? & Hf & Hv & Hrun) | (index & product & stored & Hf & Hv & Hrun)]].
  - rewrite Hrun. simpl. by rewrite Hrun.
  - rewrite Hrun. simpl. by rewrite Hrun.
  - rewrite Hrun. simpl.
    pose proof (updated_row_id _ _ _ _ _ update_data Hf Hv) as Hid.
    pose proof (first_match_insert _ _ _ _ _ Hf Hid) as Hf'.
    unfold update_product. rewrite Hf'.
    destruct (Product_validate (model_dump (model_copy stored update_data)))
      as [stored'|] eqn:Hv'; [| done].
    apply validate_dump in Hv' as ->. simpl.
    by rewrite model_copy_idem, list_insert_insert_eq.
Qed.

(** X5. Once an Update has returned, an Update of the same product with
    the empty patch changes nothing: the rewriting of a stored int price
    as a float happens at the first Update and never again. *)
Theorem empty_patch_after_update product_id update_data db (updated_item : Product) :
  fst (update_product product_id update_data db) = Return updated_item →
  snd (update_product product_id empty_patch
         (snd (update_product product_id update_data db)))
  = snd (update_product product_id update_data db).
Proof.
  destruct (update_product_cases product_id update_data db)
    as [[Hf Hrun] | [(? & ? & Hf & Hv & Hrun) | (index & product & stored & Hf & Hv & Hrun)]];
    rewrite Hrun; simpl; [done | done |]. intros _.
  pose proof (updated_row_id _ _ _ _ _ update_data Hf Hv) as Hid.
  pose proof (first_match_insert _ _ _ _ _ Hf Hid) as Hf'.
  unfold update_product. rewrite Hf'.
  destruct (Product_validate (model_dump (model_copy stored update_data)))
    as [stored'|] eqn:Hv'; [| done].
  apply validate_dump in Hv' as ->. simpl.
  by rewrite model_copy_empty, list_insert_insert_eq.
Qed.

(** The theorem at the seed, after the empty patch has rewritten the
    price of product 1. *)
Lemma empty_patch_after_update_witness :
  snd (update_product 1 empty_patch (snd (update_product 1 empty_patch fake_db)))
  = snd (update_product 1 empty_patch fake_db).
Proof.
  apply (empty_patch_after_update 1 empty_patch fake_db
           (MkProduct 1 (Some "Laptop") (Some 25000%float) (Some 5))).
  reflexivity.
Defined.

(** X6. What an Update returns is what the next Get on that id reads: the
    dump of the returned product. *)
Theorem get_after_update product_id update_data db (updated_item : Product) db' :
  update_product product_id update_data db = (Return updated_item, db') →
  get_product product_id db' = (Return (model_dump updated_item), db').
Proof.
  destruct (update_product_cases product_id update_data db)
    as [[Hf Hrun] | [(? & ? & Hf & Hv & Hrun) | (index & product & stored & Hf & Hv & Hrun)]];
    rewrite Hrun; intros [= <- <-].
  pose proof (updated_row_id _ _ _ _ _ update_data Hf Hv) as Hid.
  unfold get_product. by rewrite (first_match_insert _ _ _ _ _ Hf Hid).
Qed.

Lemma get_after_update_witness :
  get_product 2 [laptop; Row 2 (Some "Mouse") (Some (PyFloat 500)) (Some 15)]
  = (Return (Row 2 (Some "Mouse") (Some (PyFloat 500)) (Some 15)),
     [laptop; Row 2 (Some "Mouse") (Some (PyFloat 500)) (Some 15)]).
Proof.
  apply (get_after_update 2 (MkProductUpdate None None (Some (Some 15))) fake_db
           (MkProduct 2 (Some "Mouse") (Some 500%float) (Some 15))).
  reflexivity.
Defined.

(** ** Create and Delete *)

(** X7. Deleting a product that was just created, under an id that was
    free, gives back the store as it was before the Create. *)
Theorem delete_after_create p db :
  Product_id p ∉ ids db →
  delete_product (Product_id p) (snd (create_product p db))
  = (Return (MkMessage "Product deleted successfully"), db).
Proof.
  intros Hfresh. unfold create_product.
  pose proof Hfresh as ->%first_match_None. simpl.
  unfold delete_product.
  rewrite (first_match_app_fresh _ _ (model_dump p)) by done.
  by rewrite delete_middle, app_nil_r.
Qed.

Lemma delete_after_create_witness :
  delete_product 3 (snd (create_product keyboard fake_db))
  = (Return (MkMessage "Product deleted successfully"), fake_db).
Proof.
  apply (delete_after_create keyboard fake_db).
  apply first_match_None. reflexivity.
Defined.

(** X8. After a Create, whether it returned or raised, every Create with
    the same id is refused with 400 "ID already exists" and changes
    nothing. *)
Theorem create_after_create p (p' : Product) db :
  Product_id p' = Product_id p →
  create_product p' (snd (create_product p db))
  = (HTTPException 400 "ID already exists", snd (create_product p db)).
Proof.
  intros Hid. unfold create_product at 2 3.
  destruct (first_match (Product_id p) db) as [[index product]|] eqn:Hf; simpl.
  - unfold create_product. by rewrite Hid, Hf.
  - apply first_match_None in Hf. unfold create_product.
    by rewrite Hid, (first_match_app_fresh _ _ (model_dump p)).
Qed.

Lemma create_after_create_witness :
  create_product (MkProduct 3 (Some "Desk") (Some 900%float) (Some 1))
    (snd (create_product keyboard fake_db))
  = (HTTPException 400 "ID already exists", snd (create_product keyboard fake_db)).
Proof.
  apply (create_after_create keyboard
           (MkProduct 3 (Some "Desk") (Some 900%float) (Some 1)) fake_db).
  reflexivity.
Defined.

Lemma delete_product_removes_id product_id db :
  NoDup (ids db) → product_id ∉ ids (snd (delete_product product_id db)).
Proof.
  intros Hnd. unfold delete_product.
  destruct (first_match product_id db) as [[index product]|] eqn:Hf; simpl.
  - pose proof (first_match_middle _ _ _ _ Hf) as Hsplit.
    apply first_match_Some in Hf as (_ & Hid & Hfresh).
    rewrite Hsplit in Hnd. unfold ids in *.
    rewrite fmap_app, fmap_cons, Hid in Hnd.
    apply NoDup_app in Hnd as (_ & _ & [Hnot _]%NoDup_cons).
    rewrite delete_take_drop, fmap_app, elem_of_app. intros [H | H]; done.
  - by apply first_match_None.
Qed.

(** X9. With unique ids, a Delete frees the id: a Create with that id
    then returns and appends its product, and a second Delete on the id
    raises 404 "Product not found" and changes nothing. *)
Theorem delete_frees_id p db :
  NoDup (ids db) →
  create_product p (snd (delete_product (Product_id p) db))
  = (Return p, snd (delete_product (Product_id p) db) ++ [model_dump p])
  ∧ delete_product (Product_id p) (snd (delete_product (Product_id p) db))
    = (HTTPException 404 "Product not found",
       snd (delete_product (Product_id p) db)).
Proof.
  intros Hnd%(delete_product_removes_id (Product_id p))%first_match_None.
  split.
  - unfold create_product at 1. by rewrite Hnd.
  - unfold delete_product at 1. by rewrite Hnd.
Qed.

Lemma delete_frees_id_witness :
  create_product (MkProduct 1 (Some "Desk") (Some 900%float) (Some 1))
    (snd (delete_product 1 fake_db))
  = (Return (MkProduct 1 (Some "Desk") (Some 900%float) (Some 1)),
     snd (delete_product 1 fake_db)
       ++ [model_dump (MkProduct 1 (Some "Desk") (Some 900%float) (Some 1))]).
Proof.
  apply (proj1 (delete_frees_id
                  (MkProduct 1 (Some "Desk") (Some 900%float) (Some 1)) fake_db
                  seed_ids_unique)).
Defined.

(** ** Requests about different products *)

Lemma snd_shift (found : option (nat * row)) :
  snd <$> (prod_map S id <$> found) = snd <$> found.
Proof. by destruct found as [[? ?]|]. Qed.

Lemma get_product_found product_id db :
  fst (get_product product_id db)
  = match snd <$> first_match product_id db with
    | Some product => Return product
    | None => HTTPException 404 "Product not found"
    end.
Proof. unfold get_product. by destruct (first_match product_id db) as [[? ?]|]. Qed.

Lemma found_app product_id db product :
  row_id product ≠ product_id →
  snd <$> first_match product_id (db ++ [product])
  = snd <$> first_match product_id db.
Proof.
  intros Hne. induction db as [|r db IH]; simpl.
  - by case_decide.
  - case_decide; [done |]. by rewrite !snd_shift.
Qed.

Lemma found_insert product_id db index product new :
  db !! index = Some product → row_id product ≠ product_id →
  row_id new ≠ product_id →
  snd <$> first_match product_id (<[index := new]> db)
  = snd <$> first_match product_id db.
Proof.
  revert index. induction db as [|r db IH]; intros [|index] Hl Hne Hnew;
    simpl in *; try done.
  - simplify_eq. by repeat case_decide.
  - case_decide; [done |]. rewrite !snd_shift. by apply IH.
Qed.

Lemma found_delete product_id db index product :
  db !! index = Some product → row_id product ≠ product_id →
  snd <$> first_match product_id (delete index db)
  = snd <$> first_match product_id db.
Proof.
  revert index. induction db as [|r db IH]; intros [|index] Hl Hne;
    simpl in *; try done.
  - simplify_eq. case_decide; [done |]. by rewrite snd_shift.
  - case_decide; [done |]. rewrite !snd_shift. by apply IH.
Qed.

(** X10. A request about one product does not change what Get answers
    for another: after any List, Get, Create, Update or Delete that is
    not about the id, a Get on the id has the outcome it had before. *)
Theorem get_product_isolated req product_id db :
  concerns req ≠ Some product_id →
  fst (get_product product_id (handle req db)) = fst (get_product product_id db).
Proof.
  intros Hother. rewrite !get_product_found.
  enough (snd <$> first_match product_id (handle req db)
          = snd <$> first_match product_id db) as -> by done.
  destruct req as [| other | p | other update_data | other]; simpl in *.
  - done.
  - unfold get_product. by destruct (first_match other db) as [[? ?]|].
  - unfold create_product.
    destruct (first_match (Product_id p) db) as [[? ?]|]; simpl; [done |].
    apply found_app. simpl. congruence.
  - destruct (update_product_cases other update_data db)
      as [[_ ->] | [(? & ? & _ & _ & ->) | (index & product & stored & Hf & Hv & ->)]];
      simpl; [done | done |].
    pose proof (updated_row_id _ _ _ _ _ update_data Hf Hv) as Hid.
    apply first_match_Some in Hf as (Hl & Hidp & _).
    apply (found_insert _ _ _ product); [done | congruence | ].
    rewrite Hid. congruence.
  - unfold delete_product.
    destruct (first_match other db) as [[index product]|] eqn:Hf; simpl; [| done].
    apply first_match_Some in Hf as (Hl & Hidp & _).
    apply (found_delete _ _ _ product); [done | congruence].
Qed.

Lemma get_product_isolated_witness :
  fst (get_product 2 (handle (Delete 1) fake_db)) = fst (get_product 2 fake_db).
Proof.
  apply (get_product_isolated (Delete 1) 2 fake_db). discriminate.
Defined.

(** ** What the store can hold *)

(** A request puts nothing in the store but dumps of models. *)
Lemma handle_elem_of req db product :
  product ∈ handle req db → product ∈ db ∨ ∃ m : Product, product = model_dump m.
Proof.
  destruct req as [| other | p | other update_data | other]; simpl.
  - by left.
  - unfold get_product. destruct (first_match other db) as [[? ?]|]; by left.
  - unfold create_product.
    destruct (first_match (Product_id p) db) as [[? ?]|]; simpl; [by left |].
    rewrite elem_of_app, list_elem_of_singleton. intros [H | ->]; [by left |].
    right. by exists p.
  - destruct (update_product_cases other update_data db)
      as [[_ ->] | [(? & ? & _ & _ & ->) | (index & old & stored & _ & _ & ->)]];
      simpl; [by left | by left |].
    intros [j Hj]%list_elem_of_lookup.
    apply list_lookup_insert_Some in Hj as [(_ & <- & _) | (_ & Hj)].
    + right. by eexists.
    + left. apply list_elem_of_lookup. eauto.
  - unfold delete_product.
    destruct (first_match other db) as [[index old]|]; simpl; [| by left].
    intros Hin. left.
    assert (Forall (λ r, r ∈ db) (delete index db)) as Hall.
    { apply Forall_delete, Forall_forall. done. }
    by apply (proj1 (Forall_forall _ _) Hall).
Qed.

(** X11. In every store the service can reach, a product whose stored
    price is an int is one of the two seed dicts, untouched: whatever a
    Create or an Update writes has a float price or a null one. *)
Theorem int_price_only_in_seed db :
  reachable db →
  ∀ product z, product ∈ db → row_price product = Some (PyInt z) →
    product = laptop ∨ product = mouse.
Proof.
  induction 1 as [| req db Hreach IH]; intros product z Hin Hprice.
  - unfold fake_db in Hin. apply elem_of_cons in Hin as [-> | Hin]; [by left |].
    apply list_elem_of_singleton in Hin as ->. by right.
  - apply handle_elem_of in Hin as [Hin | [m ->]]; [by eapply IH |].
    simpl in Hprice. by destruct (Product_price m).
Qed.

Lemma int_price_only_in_seed_witness :
  Row 2 (Some "Mouse") (Some (PyInt 500)) (Some 20) = laptop
  ∨ Row 2 (Some "Mouse") (Some (PyInt 500)) (Some 20) = mouse.
Proof.
  apply (int_price_only_in_seed (handle (Update 1 empty_patch) fake_db)
           (reachable_step _ _ reachable_seed)
           (Row 2 (Some "Mouse") (Some (PyInt 500)) (Some 20)) 500).
  - apply list_elem_of_further, list_elem_of_here.
  - reflexivity.
Defined.

Lemma validate_validated product stored :
  Product_validate product = Some stored → validated stored.
Proof.
  unfold Product_validate. intros H.
  destruct (row_name product); simpl in H; [| done].
  destruct (row_price product ≫= float_validator); simpl in H; [| done].
  destruct (row_stock product); simpl in H; [| done].
  simplify_eq. by split_and!.
Qed.

Lemma validated_fits (m : Product) : validated m → fits_schema (model_dump m).
Proof.
  destruct m as [i n f s]. unfold validated. simpl.
  intros ([? ->] & [? ->] & [? ->]). by eexists.
Qed.

Lemma validated_copy (m : Product) update_data :
  validated m → null_free update_data → validated (model_copy m update_data).
Proof.
  destruct m as [i n f s], update_data as [un uf us].
  intros (Hn & Hf & Hs) (Hun & Huf & Hus). simpl in *.
  split_and!; simpl.
  - by destruct un as [[?|]|].
  - by destruct uf as [[?|]|].
  - by destruct us as [[?|]|].
Qed.

Lemma handle_fits req db :
  sends_no_null req → Forall fits_schema db → Forall fits_schema (handle req db).
Proof.
  intros Hreq Hdb.
  destruct req as [| other | p | other update_data | other]; simpl in *.
  - done.
  - unfold get_product. by destruct (first_match other db) as [[? ?]|].
  - unfold create_product.
    destruct (first_match (Product_id p) db) as [[? ?]|]; simpl; [done |].
    apply Forall_app. split; [done |]. apply Forall_singleton. by apply validated_fits.
  - destruct (update_product_cases other update_data db)
      as [[_ ->] | [(? & ? & _ & _ & ->) | (index & old & stored & _ & Hv & ->)]];
      simpl; [done | done |].
    apply Forall_insert; [done |].
    apply validated_fits, validated_copy; [| done]. by eapply validate_validated.
  - unfold delete_product.
    destruct (first_match other db) as [[index old]|]; simpl; [| done].
    by apply Forall_delete.
Qed.

Lemma run_fits reqs db :
  Forall sends_no_null reqs → Forall fits_schema db →
  Forall fits_schema (run reqs db).
Proof.
  intros Hreqs. revert db. induction Hreqs as [| req reqs Hreq _ IH]; intros db Hdb.
  - done.
  - simpl. apply IH. by apply handle_fits.
Qed.

Lemma seed_fits : Forall fits_schema fake_db.
Proof. repeat constructor; by eexists. Qed.

(** X12. As long as no request has sent a null, every stored dict fits
    the [Product] schema, and no Update is refused by the schema: it
    returns, or the id is not in the store. *)
Theorem no_null_no_validation_error reqs :
  Forall sends_no_null reqs →
  Forall fits_schema (run reqs fake_db)
  ∧ ∀ product_id update_data,
      fst (update_product product_id update_data (run reqs fake_db))
      ≠ ValidationError.
Proof.
  intros Hreqs. pose proof (run_fits _ _ Hreqs seed_fits) as Hfits.
  split; [done |]. intros product_id update_data.
  destruct (update_product_cases product_id update_data (run reqs fake_db))
    as [[_ ->] | [(index & product & Hf & Hv & _) | (? & ? & ? & _ & _ & ->)]];
    [done | | done].
  apply first_match_Some in Hf as (Hl & _ & _).
  destruct (Forall_lookup_1 _ _ _ _ Hfits Hl) as [stored Hstored]. congruence.
Qed.

Lemma no_null_no_validation_error_witness :
  fst (update_product 3 empty_patch
         (run [Create keyboard; Update 3 (MkProductUpdate None None (Some (Some 4)))]
              fake_db))
  ≠ ValidationError.
Proof.
  apply (no_null_no_validation_error
           [Create keyboard; Update 3 (MkProductUpdate None None (Some (Some 4)))]).
  apply Forall_cons. split.
  - unfold sends_no_null, validated. simpl. split_and!; by eexists.
  - apply Forall_singleton. unfold sends_no_null, null_free. simpl.
    split_and!; discriminate.
Defined.

(** ** Insertion order *)

(** X13. No request reorders the store.  After any request the sequence
    of stored ids is the former one with at most one id removed, followed
    by at most one new id: the products that stay keep their relative
    order, and a created product goes last. *)
Theorem handle_keeps_order req db :
  ∃ kept new,
    ids (handle req db) = kept ++ new
    ∧ kept `sublist_of` ids db
    ∧ (length (ids db) ≤ S (length kept))%nat
    ∧ (new = [] ∨ ∃ p, req = Create p ∧ new = [Product_id p]).
Proof.
  destruct req as [| other | p | other update_data | other]; simpl.
  - exists (ids db), []. rewrite app_nil_r. split_and!; [done | done | lia | by left].
  - exists (ids db), []. rewrite app_nil_r. unfold get_product.
    destruct (first_match other db) as [[? ?]|];
      (split_and!; [done | done | lia | by left]).
  - unfold create_product.
    destruct (first_match (Product_id p) db) as [[? ?]|]; simpl.
    + exists (ids db), []. rewrite app_nil_r.
      split_and!; [done | done | lia | by left].
    + exists (ids db), [Product_id p]. unfold ids. rewrite fmap_app.
      split_and!; [done | done | lia | right; by exists p].
  - exists (ids db), []. rewrite app_nil_r, update_product_ids.
    split_and!; [done | done | lia | by left].
  - exists (ids (snd (delete_product other db))), []. rewrite app_nil_r.
    unfold delete_product.
    destruct (first_match other db) as [[index product]|] eqn:Hf; simpl.
    + apply first_match_Some in Hf as (Hl & _ & _). rewrite ids_delete.
      split_and!; [done | apply sublist_delete | | by left].
      rewrite length_delete; [lia |].
      unfold ids. rewrite list_lookup_fmap, Hl. by eexists.
    + split_and!; [done | done | lia | by left].
Qed.

End CrudCompositions.
